(** * pulsego: the callback relay between libpulse and the Go host

    A shallow embedding of [src/pulsego.c] and [src/pulsego.h].

    The translation unit holds three adapter functions.  Each of them is
    registered with libpulse as a callback and does one thing: it calls
    the Go function of the same name prefixed by [go_], dropping the
    [pa_context *] argument and casting away the [const] of the snapshot
    pointer.  The Go functions are [extern] for the C file, so the
    embedding keeps them abstract: a relay function denotes a small
    program over the calls it makes to the host, and a program is given
    meaning by any host one cares to plug in. *)

From Stdlib Require Import ZArith List Bool.
Import ListNotations.
Local Open Scope Z_scope.

(** ** C data *)

(** The struct types that occur behind pointers in [pulsego.h].  Their
    layout belongs to libpulse; the relay never looks inside. *)
Inductive ctype : Type :=
| pa_context
| pa_card_info
| pa_sink_info
| void.

Inductive qualifier : Type :=
| Const
| Mutable.

(** A pointer is its address; the qualifier and the pointee type exist
    only for the type checker, as in C. *)
Record pointer (q : qualifier) (T : ctype) : Type := Ptr { address : Z }.

Arguments Ptr {q T} _.
Arguments address {q T} _.

Definition NULL {q : qualifier} {T : ctype} : pointer q T := Ptr 0.

Definition is_null {q : qualifier} {T : ctype} (p : pointer q T) : bool :=
  address p =? 0.

(** [(pa_card_info* ) i] for [i : const pa_card_info *]: same address,
    the qualifier dropped. *)
Definition const_cast {T : ctype} (p : pointer Const T) : pointer Mutable T :=
  Ptr (address p).

(** [int], [uint32_t] and the enum [pa_subscription_event_type_t] are
    passed by value and never computed with, so each is the integer it
    holds. *)
Definition int : Type := Z.
Definition uint32_t : Type := Z.
Definition pa_subscription_event_type_t : Type := Z.

(** An [int] used as a condition: zero is false, the rest is true. *)
Definition truthy (v : int) : bool := negb (v =? 0).

(** ** Calls into the host *)

(** One constructor per [extern] declaration of [pulsego.h], carrying
    the arguments of the call. *)
Inductive host_call : Type :=
| Go_card_info_cb (i : pointer Mutable pa_card_info) (eol : int)
    (userdata : pointer Mutable void)
| Go_sink_info_cb (i : pointer Mutable pa_sink_info) (eol : int)
    (userdata : pointer Mutable void)
| Go_context_subscribe_cb (t : pa_subscription_event_type_t) (idx : uint32_t)
    (userdata : pointer Mutable void).

(** A C function body that can do nothing but call the host and return:
    the free monad over [host_call].  The host functions return [void],
    so a call binds no value. *)
Inductive relay (A : Type) : Type :=
| Return (a : A)
| Extern (e : host_call) (k : relay A).

Arguments Return {A} _.
Arguments Extern {A} _ _.

Fixpoint bind {A B : Type} (m : relay A) (f : A -> relay B) : relay B :=
  match m with
  | Return a => f a
  | Extern e k => Extern e (bind k f)
  end.

Declare Scope relay_scope.
Delimit Scope relay_scope with relay.
Bind Scope relay_scope with relay.
Notation "x <- m ;; k" := (bind m (fun x => k))
  (at level 61, m at next level, right associativity) : relay_scope.
Notation "m ;; k" := (bind m (fun _ => k))
  (at level 61, right associativity) : relay_scope.
Local Open Scope relay_scope.

(** The three [extern] functions, as statements of the monad. *)
Definition go_card_info_cb (i : pointer Mutable pa_card_info) (eol : int)
    (userdata : pointer Mutable void) : relay unit :=
  Extern (Go_card_info_cb i eol userdata) (Return tt).

Definition go_sink_info_cb (i : pointer Mutable pa_sink_info) (eol : int)
    (userdata : pointer Mutable void) : relay unit :=
  Extern (Go_sink_info_cb i eol userdata) (Return tt).

Definition go_context_subscribe_cb (t : pa_subscription_event_type_t)
    (idx : uint32_t) (userdata : pointer Mutable void) : relay unit :=
  Extern (Go_context_subscribe_cb t idx userdata) (Return tt).

(** ** The relay: [pulsego.c] *)

Definition card_info_cb (c : pointer Mutable pa_context)
    (i : pointer Const pa_card_info) (eol : int)
    (userdata : pointer Mutable void) : relay unit :=
  go_card_info_cb (const_cast i) eol userdata.

Definition sink_info_cb (c : pointer Mutable pa_context)
    (i : pointer Const pa_sink_info) (eol : int)
    (userdata : pointer Mutable void) : relay unit :=
  go_sink_info_cb (const_cast i) eol userdata.

Definition context_subscribe_cb (c : pointer Mutable pa_context)
    (t : pa_subscription_event_type_t) (idx : uint32_t)
    (userdata : pointer Mutable void) : relay unit :=
  go_context_subscribe_cb t idx userdata.

(** ** Reading a relay program *)

(** The calls a program makes, in program order. *)
Fixpoint host_calls {A : Type} (p : relay A) : list host_call :=
  match p with
  | Return _ => []
  | Extern e k => e :: host_calls k
  end.

(** How a call into the host can end: it returns, leaving the world in
    some state; it fails (a Go panic, identified by a code); or it never
    comes back. *)
Inductive failure : Type := Panic (code : Z).

Inductive outcome (R : Type) : Type :=
| Returned (r : R)
| Failed (f : failure)
| Diverged.

Arguments Returned {R} _.
Arguments Failed {R} _.
Arguments Diverged {R}.

(** A host is what it does to the world on each call.  The world [W] is
    everything outside the relay: the Go heap, the snapshot memory owned
    by libpulse, the registry behind [userdata]. *)
Definition host (W : Type) : Type := host_call -> W -> outcome W.

(** One call, as a step of a program that returns [unit]. *)
Definition perform {W : Type} (h : host W) (e : host_call) (w : W)
    : outcome (unit * W) :=
  match h e w with
  | Returned w' => Returned (tt, w')
  | Failed f => Failed f
  | Diverged => Diverged
  end.

(** C has no handler for a callee that does not return: what follows
    the call is not executed. *)
Fixpoint run {W A : Type} (h : host W) (p : relay A) (w : W)
    : outcome (A * W) :=
  match p with
  | Return a => Returned (a, w)
  | Extern e k =>
      match h e w with
      | Returned w' => run h k w'
      | Failed f => Failed f
      | Diverged => Diverged
      end
  end.

(** ** The event source *)

(** What libpulse does with the three registered callbacks: it invokes
    them, one notification at a time, from its dispatch loop. *)
Inductive notification : Type :=
| CardInfo (c : pointer Mutable pa_context) (i : pointer Const pa_card_info)
    (eol : int) (userdata : pointer Mutable void)
| SinkInfo (c : pointer Mutable pa_context) (i : pointer Const pa_sink_info)
    (eol : int) (userdata : pointer Mutable void)
| SubscriptionEvent (c : pointer Mutable pa_context)
    (t : pa_subscription_event_type_t) (idx : uint32_t)
    (userdata : pointer Mutable void).

Definition deliver (n : notification) : relay unit :=
  match n with
  | CardInfo c i eol userdata => card_info_cb c i eol userdata
  | SinkInfo c i eol userdata => sink_info_cb c i eol userdata
  | SubscriptionEvent c t idx userdata => context_subscribe_cb c t idx userdata
  end.

Fixpoint dispatch (ns : list notification) : relay unit :=
  match ns with
  | [] => Return tt
  | n :: rest => deliver n ;; dispatch rest
  end.

(** The call one expects the host to receive for a notification: same
    values, handle dropped, snapshot seen through a non-const pointer. *)
Definition forwarded (n : notification) : host_call :=
  match n with
  | CardInfo _ i eol userdata => Go_card_info_cb (const_cast i) eol userdata
  | SinkInfo _ i eol userdata => Go_sink_info_cb (const_cast i) eol userdata
  | SubscriptionEvent _ t idx userdata => Go_context_subscribe_cb t idx userdata
  end.

(** ** Observations used in the statements *)

(** The value a program returns once all its calls have returned. *)
Fixpoint result {A : Type} (p : relay A) : A :=
  match p with
  | Return a => a
  | Extern _ k => result k
  end.

Definition userdata_of (e : host_call) : pointer Mutable void :=
  match e with
  | Go_card_info_cb _ _ userdata => userdata
  | Go_sink_info_cb _ _ userdata => userdata
  | Go_context_subscribe_cb _ _ userdata => userdata
  end.

Definition notification_userdata (n : notification) : pointer Mutable void :=
  match n with
  | CardInfo _ _ _ userdata => userdata
  | SinkInfo _ _ _ userdata => userdata
  | SubscriptionEvent _ _ _ userdata => userdata
  end.

(** The same notification or call, registered under another context. *)
Definition with_userdata (u : pointer Mutable void) (n : notification)
    : notification :=
  match n with
  | CardInfo c i eol _ => CardInfo c i eol u
  | SinkInfo c i eol _ => SinkInfo c i eol u
  | SubscriptionEvent c t idx _ => SubscriptionEvent c t idx u
  end.

Definition call_with_userdata (u : pointer Mutable void) (e : host_call)
    : host_call :=
  match e with
  | Go_card_info_cb i eol _ => Go_card_info_cb i eol u
  | Go_sink_info_cb i eol _ => Go_sink_info_cb i eol u
  | Go_context_subscribe_cb t idx _ => Go_context_subscribe_cb t idx u
  end.

(** The same notification, arriving from another [pa_context]. *)
Definition with_handle (c : pointer Mutable pa_context) (n : notification)
    : notification :=
  match n with
  | CardInfo _ i eol u => CardInfo c i eol u
  | SinkInfo _ i eol u => SinkInfo c i eol u
  | SubscriptionEvent _ t idx u => SubscriptionEvent c t idx u
  end.

(** The end-of-list protocol of a list query: the snapshot is null on
    the call whose [eol] is set, and on no other. *)
Definition eol_consistent (null : bool) (eol : int) : bool :=
  Bool.eqb null (truthy eol).

Definition source_keeps_eol (n : notification) : bool :=
  match n with
  | CardInfo _ i eol _ => eol_consistent (is_null i) eol
  | SinkInfo _ i eol _ => eol_consistent (is_null i) eol
  | SubscriptionEvent _ _ _ _ => true
  end.

Definition host_sees_eol (e : host_call) : bool :=
  match e with
  | Go_card_info_cb i eol _ => eol_consistent (is_null i) eol
  | Go_sink_info_cb i eol _ => eol_consistent (is_null i) eol
  | Go_context_subscribe_cb _ _ _ => true
  end.

(** A notification libpulse should never produce: a list call that
    breaks the end-of-list protocol, or an event type outside the enum.
    The enumerators live in libpulse's headers, so the range of the enum
    is a parameter. *)
Definition violates_protocol
    (in_range : pa_subscription_event_type_t -> bool) (n : notification)
    : bool :=
  match n with
  | CardInfo _ i eol _ => negb (eol_consistent (is_null i) eol)
  | SinkInfo _ i eol _ => negb (eol_consistent (is_null i) eol)
  | SubscriptionEvent _ t _ _ => negb (in_range t)
  end.

(** The facility and type masks of a subscription event cover its low
    six bits; used as a sample range. *)
Definition six_bit_event_type (t : pa_subscription_event_type_t) : bool :=
  (0 <=? t) && (t <? 64).

(** A notification dealt with at the boundary: nothing reaches the host. *)
Definition handled_defensively (n : notification) : Prop :=
  host_calls (deliver n) = [].

(** A host failure that stays at the boundary: whatever the relay does
    about it, the event source does not get the failure back. *)
Definition failure_contained {W : Type} (h : host W) (n : notification)
    (w : W) : Prop :=
  forall f : failure, run h (deliver n) w <> Failed f.

(** Selecting the traffic of one registration: pointers compare by
    address. *)
Definition same_address {q : qualifier} {T : ctype} (p1 p2 : pointer q T)
    : bool :=
  address p1 =? address p2.

Definition from_context (u : pointer Mutable void) (n : notification) : bool :=
  same_address (notification_userdata n) u.

Definition for_context (u : pointer Mutable void) (e : host_call) : bool :=
  same_address (userdata_of e) u.

(** ** Sample hosts *)

(** Keeps a log of the calls it receives. *)
Definition recorder : host (list host_call) :=
  fun e log => Returned (log ++ [e]).

(** Fails on every call. *)
Definition panicking : host unit :=
  fun _ _ => Failed (Panic 2).

(** Never returns from a call. *)
Definition hanging : host unit :=
  fun _ _ => Diverged.

(** A world with a part the host writes (a log of the contexts it was
    called with) and a part it leaves alone. *)
Record ledger : Type := Ledger { seen : list Z; budget : Z }.

Definition bookkeeper : host ledger :=
  fun e w => Returned (Ledger (address (userdata_of e) :: seen w) (budget w)).

(** Sample addresses. *)
Definition src0 : pointer Mutable pa_context := Ptr 4096.
Definition src1 : pointer Mutable pa_context := Ptr 8192.
Definition snap1 : pointer Const pa_card_info := Ptr 24576.
Definition ctx0 : pointer Mutable void := Ptr 7.

(** ** The monad *)

Section Laws.
Context {A B C : Type}.

Lemma bind_Return_l (a : A) (f : A -> relay B) : bind (Return a) f = f a.
Proof. reflexivity. Qed.

Lemma bind_Return_r (m : relay A) : bind m Return = m.
Proof. induction m as [a | e k IH]; simpl; [ | rewrite IH]; reflexivity. Qed.

Lemma bind_assoc (m : relay A) (f : A -> relay B) (g : B -> relay C) :
  bind (bind m f) g = bind m (fun a => bind (f a) g).
Proof. induction m as [a | e k IH]; simpl; [ | rewrite IH]; reflexivity. Qed.

Lemma host_calls_bind (m : relay A) (f : A -> relay B) :
  host_calls (bind m f) = host_calls m ++ host_calls (f (result m)).
Proof. induction m as [a | e k IH]; simpl; [ | rewrite IH]; reflexivity. Qed.

Lemma run_bind {W : Type} (h : host W) (m : relay A) (f : A -> relay B)
    (w : W) :
  run h (bind m f) w =
  match run h m w with
  | Returned (a, w') => run h (f a) w'
  | Failed x => Failed x
  | Diverged => Diverged
  end.
Proof.
  revert w; induction m as [a | e k IH]; intro w; simpl.
  - reflexivity.
  - destruct (h e w) as [w' | x | ]; [apply IH | reflexivity | reflexivity].
Qed.
End Laws.

(** The log of the recording host is the list of calls of the program:
    the two readings of a program agree. *)
Lemma run_recorder {A : Type} (p : relay A) (log : list host_call) :
  run recorder p log = Returned (result p, log ++ host_calls p).
Proof.
  revert log; induction p as [a | e k IH]; intro log; simpl.
  - now rewrite app_nil_r.
  - unfold recorder at 1. rewrite IH, <- app_assoc. reflexivity.
Qed.

(** ** The three adapters, uniformly *)

Ltac by_kind n := destruct n as [c i eol u | c i eol u | c t idx u].

Lemma deliver_shape (n : notification) :
  deliver n = Extern (forwarded n) (Return tt).
Proof. by_kind n; reflexivity. Qed.

Lemma run_call {W : Type} (h : host W) (e : host_call) (w : W) :
  run h (Extern e (Return tt)) w = perform h e w.
Proof. unfold perform; simpl. destruct (h e w); reflexivity. Qed.

Lemma run_deliver {W : Type} (h : host W) (n : notification) (w : W) :
  run h (deliver n) w = perform h (forwarded n) w.
Proof. rewrite deliver_shape. apply run_call. Qed.

Lemma host_calls_deliver (n : notification) :
  host_calls (deliver n) = [forwarded n].
Proof. rewrite deliver_shape. reflexivity. Qed.

Lemma host_calls_dispatch (ns : list notification) :
  host_calls (dispatch ns) = map forwarded ns.
Proof.
  induction ns as [ | n rest IH]; simpl.
  - reflexivity.
  - rewrite host_calls_bind, host_calls_deliver, IH. reflexivity.
Qed.

Lemma perform_Returned {W : Type} (h : host W) (e : host_call) (w w' : W) :
  perform h e w = Returned (tt, w') <-> h e w = Returned w'.
Proof.
  unfold perform; destruct (h e w) as [w1 | x | ]; split; intro H;
    inversion H; reflexivity.
Qed.

Lemma perform_Failed {W : Type} (h : host W) (e : host_call) (w : W)
    (x : failure) :
  perform h e w = Failed x <-> h e w = Failed x.
Proof.
  unfold perform; destruct (h e w) as [w1 | y | ]; split; intro H;
    inversion H; reflexivity.
Qed.

Lemma perform_Diverged {W : Type} (h : host W) (e : host_call) (w : W) :
  perform h e w = Diverged <-> h e w = Diverged.
Proof.
  unfold perform; destruct (h e w) as [w1 | y | ]; split; intro H;
    inversion H; reflexivity.
Qed.

Lemma const_cast_address {T : ctype} (p : pointer Const T) :
  address (const_cast p) = address p.
Proof. reflexivity. Qed.

Lemma const_cast_is_null {T : ctype} (p : pointer Const T) :
  is_null (const_cast p) = is_null p.
Proof. reflexivity. Qed.

Lemma forwarded_keeps_eol (n : notification) :
  host_sees_eol (forwarded n) = source_keeps_eol n.
Proof. by_kind n; reflexivity. Qed.

(** What [eol_consistent] decides. *)
Lemma eol_consistent_iff {q : qualifier} {T : ctype} (p : pointer q T)
    (eol : int) :
  eol_consistent (is_null p) eol = true <-> (address p = 0 <-> eol <> 0).
Proof.
  unfold eol_consistent, is_null, truthy.
  destruct (Z.eqb_spec (address p) 0) as [Hp | Hp];
    destruct (Z.eqb_spec eol 0) as [He | He]; simpl;
    intuition (try discriminate; try congruence).
Qed.

(** * Forwarding *)

(** C1.  [card_info_cb] and [sink_info_cb] each make exactly one call,
    to [go_card_info_cb] and [go_sink_info_cb] respectively, with the
    snapshot pointer, the end-of-list flag and the context they were
    given.  The pointer handed over has the address of the one received
    (only its [const] is gone), and the host is entered in the very
    world the relay was entered in, so the snapshot the host reads is
    the snapshot libpulse wrote. *)
Theorem info_relays_forward_the_triple :
  forall (c : pointer Mutable pa_context) (eol : int)
         (userdata : pointer Mutable void),
    (forall i : pointer Const pa_card_info,
        host_calls (card_info_cb c i eol userdata)
          = [Go_card_info_cb (const_cast i) eol userdata]
        /\ address (const_cast i) = address i
        /\ forall (W : Type) (h : host W) (w : W),
             run h (card_info_cb c i eol userdata) w
               = perform h (Go_card_info_cb (const_cast i) eol userdata) w)
    /\
    (forall i : pointer Const pa_sink_info,
        host_calls (sink_info_cb c i eol userdata)
          = [Go_sink_info_cb (const_cast i) eol userdata]
        /\ address (const_cast i) = address i
        /\ forall (W : Type) (h : host W) (w : W),
             run h (sink_info_cb c i eol userdata) w
               = perform h (Go_sink_info_cb (const_cast i) eol userdata) w).
Proof.
  intros c eol userdata; split; intro i;
    (split; [reflexivity | split; [apply const_cast_address | ]]);
    intros W h w.
  - unfold card_info_cb, go_card_info_cb. apply run_call.
  - unfold sink_info_cb, go_sink_info_cb. apply run_call.
Qed.

(** C2.  [context_subscribe_cb] makes exactly one call, to
    [go_context_subscribe_cb], with the event type, the object index and
    the context it was given, none of them changed. *)
Theorem subscription_relay_forwards_the_event :
  forall (c : pointer Mutable pa_context) (t : pa_subscription_event_type_t)
         (idx : uint32_t) (userdata : pointer Mutable void),
    host_calls (context_subscribe_cb c t idx userdata)
      = [Go_context_subscribe_cb t idx userdata]
    /\ (forall log : list host_call,
          run recorder (context_subscribe_cb c t idx userdata) log
            = Returned (tt, log ++ [Go_context_subscribe_cb t idx userdata]))
    /\ (forall (W : Type) (h : host W) (w : W),
          run h (context_subscribe_cb c t idx userdata) w
            = perform h (Go_context_subscribe_cb t idx userdata) w).
Proof.
  intros c t idx userdata. split; [reflexivity | split].
  - intro log. now rewrite run_recorder.
  - intros W h w.
    unfold context_subscribe_cb, go_context_subscribe_cb. apply run_call.
Qed.

(** C3.  Whatever the notification, the context the host receives is the
    context the relay received.  The relay is moreover uniform in it:
    registering the same notification under another context changes the
    call by that context and nothing else, so no decision is taken on
    it; and the host runs in the world the relay was entered in, so
    nothing the context refers to has been written in between. *)
Theorem userdata_passes_through :
  forall n : notification,
    map userdata_of (host_calls (deliver n)) = [notification_userdata n]
    /\ (forall u : pointer Mutable void,
          host_calls (deliver (with_userdata u n))
            = map (call_with_userdata u) (host_calls (deliver n)))
    /\ (forall (W : Type) (h : host W) (w : W),
          run h (deliver n) w = perform h (forwarded n) w
          /\ userdata_of (forwarded n) = notification_userdata n).
Proof.
  intro n; split; [ | split].
  - by_kind n; reflexivity.
  - intro u'. by_kind n; reflexivity.
  - intros W h w; split; [apply run_deliver | by_kind n; reflexivity].
Qed.

(** * Failure *)

(** C4, against the claim as stated.  A host that panics on the device
    call: the relay hands the panic on to its caller.  Nothing in
    [card_info_cb] stands between [go_card_info_cb] and the dispatch
    loop. *)
Lemma host_panic_escapes_card_info_cb :
  panicking (forwarded (CardInfo src0 snap1 0 ctx0)) tt = Failed (Panic 2)
  /\ run panicking (card_info_cb src0 snap1 0 ctx0) tt = Failed (Panic 2)
  /\ ~ failure_contained panicking (CardInfo src0 snap1 0 ctx0) tt.
Proof.
  split; [reflexivity | split; [reflexivity | ]].
  intro contained. exact (contained (Panic 2) eq_refl).
Qed.

(** C4, amended.  The relay adds no failure of its own and intercepts
    none: an invocation ends exactly as its one host call ends.  It
    returns when and only when the host returns, and then in the world
    the host left; it fails when and only when the host fails, with the
    host's failure; it hangs when and only when the host hangs. *)
Theorem relay_outcome_is_host_outcome :
  forall (W : Type) (h : host W) (n : notification) (w : W),
    (forall w' : W,
        run h (deliver n) w = Returned (tt, w')
        <-> h (forwarded n) w = Returned w')
    /\ (forall f : failure,
          run h (deliver n) w = Failed f <-> h (forwarded n) w = Failed f)
    /\ (run h (deliver n) w = Diverged <-> h (forwarded n) w = Diverged).
Proof.
  intros W h n w. rewrite run_deliver. split; [ | split].
  - intro w'. apply perform_Returned.
  - intro f. apply perform_Failed.
  - apply perform_Diverged.
Qed.

(** * The end-of-list protocol *)

(** C5.  If every list notification of a sequence has a null snapshot
    exactly when its end-of-list flag is set, then so has every call
    the host receives while the sequence is dispatched: a device or
    sink call reaches the host with a null snapshot if and only if its
    flag is set. *)
Theorem eol_protocol_preserved :
  forall ns : list notification,
    forallb source_keeps_eol ns = true ->
    forallb host_sees_eol (host_calls (dispatch ns)) = true
    /\ (forall (i : pointer Mutable pa_card_info) (eol : int)
               (userdata : pointer Mutable void),
          In (Go_card_info_cb i eol userdata) (host_calls (dispatch ns)) ->
          (address i = 0 <-> eol <> 0))
    /\ (forall (i : pointer Mutable pa_sink_info) (eol : int)
               (userdata : pointer Mutable void),
          In (Go_sink_info_cb i eol userdata) (host_calls (dispatch ns)) ->
          (address i = 0 <-> eol <> 0)).
Proof.
  intros ns Hsrc.
  assert (Hhost : forallb host_sees_eol (host_calls (dispatch ns)) = true).
  { rewrite host_calls_dispatch.
    induction ns as [ | n rest IH]; simpl in *.
    - reflexivity.
    - apply andb_true_iff in Hsrc as [Hn Hrest].
      rewrite forwarded_keeps_eol, Hn. simpl. apply IH, Hrest. }
  split; [exact Hhost | ].
  split; intros i eol userdata Hin;
    apply (proj1 (forallb_forall _ _) Hhost) in Hin;
    apply eol_consistent_iff; exact Hin.
Qed.

(** The scenario of C6 as the sequence: one card, then the end marker. *)
Lemma eol_protocol_preserved_witness :
  forallb source_keeps_eol
    [CardInfo src0 snap1 0 ctx0; CardInfo src0 NULL 1 ctx0] = true
  /\ forallb host_sees_eol
       (host_calls
          (dispatch [CardInfo src0 snap1 0 ctx0; CardInfo src0 NULL 1 ctx0]))
     = true.
Proof.
  split; [reflexivity | ].
  apply (eol_protocol_preserved
           [CardInfo src0 snap1 0 ctx0; CardInfo src0 NULL 1 ctx0]).
  reflexivity.
Defined.

(** C6.  A device query with one card: [card_info_cb] is called with the
    snapshot and a clear flag, then with a null snapshot and the flag
    set.  The host's device handler is called twice, in that order,
    whatever the host does with the calls: first with a pointer to the
    address of the snapshot, the clear flag and the context, then with
    the null pointer, the set flag and the context.  The cast in the
    body of [card_info_cb] keeps the address.  In general the calls the
    host receives are the notifications, one for one and in order, each
    with the values it arrived with. *)
Theorem device_list_scenario :
  forall (src : pointer Mutable pa_context) (snap : pointer Const pa_card_info)
         (ctx : pointer Mutable void),
    host_calls (card_info_cb src snap 0 ctx ;; card_info_cb src NULL 1 ctx)
      = [Go_card_info_cb (Ptr (address snap)) 0 ctx;
         Go_card_info_cb (Ptr 0) 1 ctx]
    /\ address (const_cast snap) = address snap
    /\ run recorder
         (card_info_cb src snap 0 ctx ;; card_info_cb src NULL 1 ctx) []
       = Returned
           (tt, [Go_card_info_cb (Ptr (address snap)) 0 ctx;
                 Go_card_info_cb (Ptr 0) 1 ctx])
    /\ (forall (W : Type) (h : host W) (w : W),
          run h (card_info_cb src snap 0 ctx ;; card_info_cb src NULL 1 ctx) w
          = match h (Go_card_info_cb (Ptr (address snap)) 0 ctx) w with
            | Returned w1 => perform h (Go_card_info_cb (Ptr 0) 1 ctx) w1
            | Failed f => Failed f
            | Diverged => Diverged
            end)
    /\ (forall ns : list notification,
          host_calls (dispatch ns) = map forwarded ns
          /\ length (host_calls (dispatch ns)) = length ns)
    /\ (forall (c : pointer Mutable pa_context) (eol : int)
               (userdata : pointer Mutable void),
          (forall i : pointer Const pa_card_info,
              forwarded (CardInfo c i eol userdata)
                = Go_card_info_cb (Ptr (address i)) eol userdata)
          /\ (forall i : pointer Const pa_sink_info,
                forwarded (SinkInfo c i eol userdata)
                  = Go_sink_info_cb (Ptr (address i)) eol userdata)
          /\ (forall (t : pa_subscription_event_type_t) (idx : uint32_t),
                forwarded (SubscriptionEvent c t idx userdata)
                  = Go_context_subscribe_cb t idx userdata)).
Proof.
  intros src snap ctx.
  split; [reflexivity | ].
  split; [apply const_cast_address | ].
  split; [reflexivity | ].
  split; [ | split].
  - intros W h w. rewrite run_bind.
    unfold card_info_cb, go_card_info_cb, const_cast, NULL; simpl.
    destruct (h (Go_card_info_cb (Ptr (address snap)) 0 ctx) w)
      as [w1 | f | ]; [apply run_call | reflexivity | reflexivity].
  - intro ns. rewrite host_calls_dispatch. split; [reflexivity | ].
    apply length_map.
  - intros c eol userdata. split; [ | split]; intros; reflexivity.
Qed.

(** * Input the protocol rules out *)

(** C7, against the claim as stated.  A device notification with a null
    snapshot and a clear end-of-list flag breaks the protocol, and
    [card_info_cb] forwards it like any other: the host is called with
    the null pointer and the clear flag. *)
Lemma null_snapshot_without_eol_is_forwarded :
  violates_protocol six_bit_event_type (CardInfo src0 NULL 0 ctx0) = true
  /\ host_calls (card_info_cb src0 NULL 0 ctx0) = [Go_card_info_cb NULL 0 ctx0]
  /\ ~ handled_defensively (CardInfo src0 NULL 0 ctx0).
Proof.
  split; [reflexivity | split; [reflexivity | ]].
  unfold handled_defensively; simpl. discriminate.
Qed.

(** C7, amended.  The relay validates nothing.  A notification that
    breaks the end-of-list protocol, or whose event type lies outside
    the enum (whatever its range), is forwarded to the host unchanged,
    as one call, exactly like a well-formed one; the relay neither drops
    it nor fails on it, and the invocation ends as the host call ends. *)
Theorem protocol_violations_are_forwarded :
  forall (in_range : pa_subscription_event_type_t -> bool) (n : notification),
    violates_protocol in_range n = true ->
    host_calls (deliver n) = [forwarded n]
    /\ host_sees_eol (forwarded n) = source_keeps_eol n
    /\ forall (W : Type) (h : host W) (w : W),
         run h (deliver n) w = perform h (forwarded n) w.
Proof.
  intros in_range n _. split; [apply host_calls_deliver | split].
  - apply forwarded_keeps_eol.
  - intros W h w. apply run_deliver.
Qed.

(** A null snapshot with a clear flag, and an event type of thirteen
    bits: both go through. *)
Lemma protocol_violations_are_forwarded_witness :
  (violates_protocol six_bit_event_type (CardInfo src0 NULL 0 ctx0) = true
   /\ host_calls (deliver (CardInfo src0 NULL 0 ctx0))
      = [Go_card_info_cb NULL 0 ctx0])
  /\ (violates_protocol six_bit_event_type
        (SubscriptionEvent src0 4096 3 ctx0) = true
      /\ host_calls (deliver (SubscriptionEvent src0 4096 3 ctx0))
         = [Go_context_subscribe_cb 4096 3 ctx0]).
Proof.
  split; (split; [reflexivity | ]).
  - exact (proj1 (protocol_violations_are_forwarded six_bit_event_type
                    (CardInfo src0 NULL 0 ctx0) eq_refl)).
  - exact (proj1 (protocol_violations_are_forwarded six_bit_event_type
                    (SubscriptionEvent src0 4096 3 ctx0) eq_refl)).
Defined.

(** * The handle *)

(** C8.  The [pa_context] pointer plays no part: two invocations of an
    adapter that differ in it alone are the same program, hence make the
    same host call and end the same way under every host.  No host call
    has a field that could carry the handle. *)
Theorem handle_is_irrelevant :
  forall c1 c2 : pointer Mutable pa_context,
    (forall (i : pointer Const pa_card_info) (eol : int)
            (userdata : pointer Mutable void),
        card_info_cb c1 i eol userdata = card_info_cb c2 i eol userdata)
    /\ (forall (i : pointer Const pa_sink_info) (eol : int)
               (userdata : pointer Mutable void),
          sink_info_cb c1 i eol userdata = sink_info_cb c2 i eol userdata)
    /\ (forall (t : pa_subscription_event_type_t) (idx : uint32_t)
               (userdata : pointer Mutable void),
          context_subscribe_cb c1 t idx userdata
            = context_subscribe_cb c2 t idx userdata)
    /\ (forall (n : notification) (W : Type) (h : host W) (w : W),
          forwarded (with_handle c1 n) = forwarded (with_handle c2 n)
          /\ run h (deliver (with_handle c1 n)) w
             = run h (deliver (with_handle c2 n)) w).
Proof.
  intros c1 c2. repeat (split; [reflexivity | ]).
  intros n W h w. by_kind n; split; reflexivity.
Qed.

(** * Effects *)

(** C9.  An invocation of an adapter does to the world what its one
    host call does and nothing more.  So a part of the world the host
    call leaves alone is left alone by the invocation; under a host that
    changes nothing, an invocation changes nothing; and since the relay
    keeps no state, what an invocation does is not affected by the
    invocations before it. *)
Theorem relay_frame :
  forall (W : Type) (h : host W) (n : notification) (w : W),
    run h (deliver n) w = perform h (forwarded n) w
    /\ (forall (X : Type) (part : W -> X),
          (forall w1 : W, h (forwarded n) w = Returned w1 -> part w1 = part w) ->
          forall w' : W,
            run h (deliver n) w = Returned (tt, w') -> part w' = part w)
    /\ run (fun _ w0 => Returned w0) (deliver n) w = Returned (tt, w)
    /\ (forall earlier : list notification,
          host_calls (dispatch (earlier ++ [n]))
            = host_calls (dispatch earlier) ++ host_calls (deliver n)).
Proof.
  intros W h n w. split; [apply run_deliver | split; [ | split]].
  - intros X part Hframe w' Hrun.
    rewrite run_deliver in Hrun. apply perform_Returned in Hrun.
    exact (Hframe w' Hrun).
  - rewrite run_deliver. reflexivity.
  - intro earlier.
    rewrite !host_calls_dispatch, host_calls_deliver, map_app. reflexivity.
Qed.

(** The bookkeeper notes the context of a sink call and does not touch
    the budget; neither does the invocation. *)
Lemma relay_frame_witness :
  run bookkeeper (deliver (SinkInfo src0 NULL 1 ctx0)) (Ledger [] 100)
    = Returned (tt, Ledger [7] 100)
  /\ budget (Ledger [7] 100) = budget (Ledger [] 100).
Proof.
  split; [reflexivity | ].
  apply (proj1 (proj2 (relay_frame ledger bookkeeper
                         (SinkInfo src0 NULL 1 ctx0) (Ledger [] 100)))
           Z budget).
  - intros w1 Hcall. inversion Hcall. reflexivity.
  - reflexivity.
Defined.

(** * Termination *)

(** C10.  Each adapter is a single call followed by a return: the call
    does not depend on any test of the arguments, there is no second
    call and no loop.  Hence an invocation returns whenever its host
    call returns, and can only hang inside the host. *)
Theorem relay_is_one_call_then_return :
  forall (c : pointer Mutable pa_context) (userdata : pointer Mutable void),
    (forall (i : pointer Const pa_card_info) (eol : int),
        card_info_cb c i eol userdata
          = Extern (Go_card_info_cb (const_cast i) eol userdata) (Return tt))
    /\ (forall (i : pointer Const pa_sink_info) (eol : int),
          sink_info_cb c i eol userdata
            = Extern (Go_sink_info_cb (const_cast i) eol userdata) (Return tt))
    /\ (forall (t : pa_subscription_event_type_t) (idx : uint32_t),
          context_subscribe_cb c t idx userdata
            = Extern (Go_context_subscribe_cb t idx userdata) (Return tt))
    /\ (forall n : notification,
          length (host_calls (deliver n)) = 1%nat
          /\ forall (W : Type) (h : host W) (w : W),
               (forall w' : W,
                   h (forwarded n) w = Returned w' ->
                   run h (deliver n) w = Returned (tt, w'))
               /\ (run h (deliver n) w = Diverged ->
                   h (forwarded n) w = Diverged)).
Proof.
  intros c userdata. repeat (split; [reflexivity | ]).
  intro n. split; [now rewrite host_calls_deliver | ].
  intros W h w. rewrite run_deliver. split.
  - intros w' Hret. now apply perform_Returned.
  - apply perform_Diverged.
Qed.

(** A sink-changed event for object 3, under the recording host. *)
Lemma relay_is_one_call_then_return_witness :
  recorder (forwarded (SubscriptionEvent src1 16 3 ctx0)) []
    = Returned [Go_context_subscribe_cb 16 3 ctx0]
  /\ run recorder (deliver (SubscriptionEvent src1 16 3 ctx0)) []
     = Returned (tt, [Go_context_subscribe_cb 16 3 ctx0]).
Proof.
  split; [reflexivity | ].
  apply (proj1 (proj2 (proj2 (proj2 (proj2
           (relay_is_one_call_then_return src1 ctx0)))
           (SubscriptionEvent src1 16 3 ctx0)) (list host_call) recorder [])).
  reflexivity.
Defined.

(** * Streams of notifications *)

Lemma address_injective {q : qualifier} {T : ctype} (p1 p2 : pointer q T) :
  address p1 = address p2 -> p1 = p2.
Proof. destruct p1 as [a1], p2 as [a2]; simpl. intros ->. reflexivity. Qed.

Lemma for_context_forwarded (ctx : pointer Mutable void) (n : notification) :
  for_context ctx (forwarded n) = from_context ctx n.
Proof. by_kind n; reflexivity. Qed.

(** X1.  The handle is all the relay drops.  Two notifications lead to
    the same host call exactly when they are of the same kind and agree
    on every argument but the [pa_context]: the host can tell apart any
    two notifications that differ in snapshot address, flag, event
    type, index or context. *)
Theorem forwarding_loses_only_the_handle :
  forall (n1 n2 : notification) (c : pointer Mutable pa_context),
    host_calls (deliver n1) = host_calls (deliver n2)
    <-> with_handle c n1 = with_handle c n2.
Proof.
  intros n1 n2 c0. rewrite !host_calls_deliver. split.
  - intro Hcalls. injection Hcalls as Hcall.
    destruct n1 as [c1 i1 e1 u1 | c1 i1 e1 u1 | c1 t1 x1 u1];
      destruct n2 as [c2 i2 e2 u2 | c2 i2 e2 u2 | c2 t2 x2 u2];
      simpl in Hcall; try discriminate Hcall;
      injection Hcall as Ha Hb Hc; subst; simpl;
      try (apply address_injective in Ha; subst); reflexivity.
  - intro Hsame. f_equal.
    destruct n1 as [c1 i1 e1 u1 | c1 i1 e1 u1 | c1 t1 x1 u1];
      destruct n2 as [c2 i2 e2 u2 | c2 i2 e2 u2 | c2 t2 x2 u2];
      simpl in Hsame; try discriminate Hsame;
      injection Hsame as Ha Hb Hc; subst; reflexivity.
Qed.

(** X2.  Registrations do not mix.  When notifications of several
    registrations arrive interleaved, the calls the host receives for
    one context are the notifications of that context, each forwarded,
    in the order they arrived: none is lost, none is attributed to
    another context, none overtakes another. *)
Theorem per_context_order_is_kept :
  forall (u : pointer Mutable void) (ns : list notification),
    filter (for_context u) (host_calls (dispatch ns))
      = map forwarded (filter (from_context u) ns)
    /\ filter (for_context u) (host_calls (dispatch ns))
       = host_calls (dispatch (filter (from_context u) ns)).
Proof.
  intros u ns.
  assert (Hmap : filter (for_context u) (map forwarded ns)
                 = map forwarded (filter (from_context u) ns)).
  { induction ns as [ | n rest IH]; simpl.
    - reflexivity.
    - rewrite for_context_forwarded.
      destruct (from_context u n); simpl; rewrite IH; reflexivity. }
  rewrite !host_calls_dispatch. split; exact Hmap.
Qed.

(** X3.  The relay neither repairs nor breaks the end-of-list protocol:
    the calls the host receives keep it if and only if the notifications
    did.  A host that finds the protocol violated has found a violation
    made by the event source. *)
Theorem eol_protocol_reflected :
  forall ns : list notification,
    forallb host_sees_eol (host_calls (dispatch ns))
      = forallb source_keeps_eol ns
    /\ (existsb (fun e => negb (host_sees_eol e)) (host_calls (dispatch ns))
        = existsb (fun n => negb (source_keeps_eol n)) ns).
Proof.
  intro ns. rewrite host_calls_dispatch.
  induction ns as [ | n rest [IHall IHex]]; simpl.
  - split; reflexivity.
  - rewrite forwarded_keeps_eol, IHall, IHex. split; reflexivity.
Qed.
